(** * Review service of the e-commerce API ([app/routers/reviews.py])

    A shallow embedding of the three request handlers [get_all_reviews],
    [create_review] and [delete_review] and of the helper
    [update_product_rating], followed by the properties of the review
    life cycle and of the derived product rating.

    Modelling decisions.
    - The [reviews] table is a list of rows in storage order (a new row is
      appended); the [products] table is only ever read through its primary
      key, so it is a finite map from the key to the remaining columns.
    - A handler is a computation in a state-and-exception monad over the
      database: an [HTTPException] aborts the handler and keeps the database
      as it is at the raise.
    - [commit] and [refresh] leave the tables as they are: every write of the
      handlers is visible to the reads that follow it in the same session.
    - [AVG] is the exact mean.  A Python float is the rational it stands
      for: [py_float] rounds a rational to the nearest binary64 number, ties
      to the even mantissa, with gradual underflow; [py_round2] is
      [round(d, 2)] on such a number.  Overflow to infinity is not modelled:
      it needs a mean of at least [2^1023], beyond any SQL integer column. *)

From Stdlib Require Import ZArith QArith Lia.
From stdpp Require Import base option list gmap strings.

Close Scope Q_scope.
Open Scope Z_scope.

(** ** Data model *)

(** [app.models.reviews.Review]: the columns the handlers read and write. *)
Module ReviewModel.
Record t : Type := mk {
  id : Z;
  user_id : Z;
  product_id : Z;
  comment : string;
  grade : Z;
  is_active : bool
}.

(** The row after [UPDATE ... SET is_active = False]. *)
Definition deactivate (r : t) : t :=
  {| id := id r; user_id := user_id r; product_id := product_id r;
     comment := comment r; grade := grade r; is_active := false |}.
End ReviewModel.

#[global] Instance ReviewModel_eq_dec : EqDecision ReviewModel.t.
Proof. solve_decision. Defined.

(** [app.models.products.Product]: the primary key [id] is the key of the
    [products] map; the handlers touch [rating] and [is_active] only. *)
Module ProductModel.
Record t : Type := mk {
  rating : Q;
  is_active : bool
}.

(** [product.rating = x] *)
Definition set_rating (x : Q) (p : t) : t :=
  {| rating := x; is_active := is_active p |}.
End ProductModel.

(** [app.models.users.User]: the handlers read [current_user.id] only. *)
Module UserModel.
Record t : Type := mk { id : Z }.
End UserModel.

(** [app.schemas.ReviewCreate], the body of [POST /reviews/]. *)
Module ReviewCreate.
Record t : Type := mk {
  product_id : Z;
  comment : string;
  grade : Z
}.
End ReviewCreate.

Record HTTPException : Type := mkHTTPException {
  status_code : Z;
  detail : string
}.

Definition HTTP_400_BAD_REQUEST : Z := 400.
Definition HTTP_404_NOT_FOUND : Z := 404.

(** The tables seen through the [AsyncSession]. *)
Record DB : Type := mkDB {
  reviews : list ReviewModel.t;
  products : gmap Z ProductModel.t
}.

(** ** The handler monad *)

Definition M (A : Type) : Type := DB → (HTTPException + A) * DB.

#[global] Instance M_ret : MRet M := λ A a db, (inr a, db).

#[global] Instance M_bind : MBind M := λ A B f m db,
  match m db with
  | (inl e, db') => (inl e, db')
  | (inr a, db') => f a db'
  end.

(** [raise HTTPException(...)] *)
Definition raise {A : Type} (e : HTTPException) : M A := λ db, (inl e, db).

(** A [SELECT]: reads the tables, changes nothing. *)
Definition query {A : Type} (f : DB → A) : M A := λ db, (inr (f db), db).

(** A write ([UPDATE], [db.add], an attribute assignment that is flushed). *)
Definition execute (f : DB → DB) : M unit := λ db, (inr tt, f db).

Definition commit : M unit := mret tt.
Definition refresh : M unit := mret tt.

(** ** Queries and arithmetic *)

Definition sum_Z (gs : list Z) : Z := foldr Z.add 0 gs.

(** [func.avg]: SQL [AVG] is [NULL] over no rows, the exact mean
    otherwise. *)
Definition avg (gs : list Z) : option Q :=
  match gs with
  | [] => None
  | _ => Some (sum_Z gs # Pos.of_nat (length gs))%Q
  end.

(** [result.scalar() or 0.0]: [None] and a zero average are both falsy. *)
Definition scalar_or_zero (o : option Q) : Q :=
  match o with
  | Some q => if Qeq_bool q 0 then 0%Q else q
  | None => 0%Q
  end.

(** The integer nearest to [p / q] for [0 < q], ties to the even one. *)
Definition rne (p q : Z) : Z :=
  let f := p / q in
  let r := 2 * (p mod q) in
  if r <? q then f
  else if q <? r then f + 1
  else if Z.even f then f else f + 1.

(** The exponent of the last mantissa bit of the binary64 number nearest
    to [n / b] (for [0 < n], [0 < b]): the [e] with [n / b / 2^e] in
    [[2^52, 2^53)], or [-1074] for a subnormal result. *)
Definition float_exponent (n b : Z) : Z :=
  let e0 := Z.log2 n - Z.log2 b - 53 in
  let e1 := if 2 ^ 53 * (b * 2 ^ Z.max 0 e0) <=? n * 2 ^ Z.max 0 (- e0)
            then e0 + 1 else e0 in
  Z.max e1 (-1074).

(** [float(x)]: the binary64 number nearest to [x], ties to the even
    mantissa; the mantissa is [|x| / 2^e] rounded to an integer. *)
Definition py_float (x : Q) : Q :=
  let a := Qnum x in
  let b := Z.pos (Qden x) in
  if a =? 0 then 0%Q else
  let n := Z.abs a in
  let e := float_exponent n b in
  let m := rne (n * 2 ^ Z.max 0 (- e)) (b * 2 ^ Z.max 0 e) in
  Qred (Z.sgn a * m * 2 ^ Z.max 0 e # Z.to_pos (2 ^ Z.max 0 (- e))).

(** The decimal that [round(d, 2)] selects: the multiple of 1/100 nearest
    to the exact value of [d], ties to the even one, in lowest terms. *)
Definition round2 (d : Q) : Q :=
  Qred (rne (100 * Qnum d) (Z.pos (Qden d)) # 100).

(** [round(d, 2)] on a float [d]: the float nearest to that decimal. *)
Definition py_round2 (d : Q) : Q := py_float (round2 d).

(** The rows selected by
    [where(ReviewModel.product_id == product_id, ReviewModel.is_active == True)]. *)
Definition active_reviews_of (product_id : Z) (rs : list ReviewModel.t)
  : list ReviewModel.t :=
  filter (λ r, ReviewModel.product_id r = product_id
               ∧ ReviewModel.is_active r = true) rs.

(** The key the store gives to a new row: one more than the largest key
    in the table. *)
Definition next_id (rs : list ReviewModel.t) : Z :=
  1 + foldr Z.max 0 (ReviewModel.id <$> rs).

(** ** [update_product_rating] *)

Definition update_product_rating (product_id : Z) : M unit :=
  result ← query (λ db,
    avg (ReviewModel.grade <$> active_reviews_of product_id (reviews db)));
  let avg_rating := scalar_or_zero result in
  product ← query (λ db, products db !! product_id);
  match product with
  | Some product =>
      execute (λ db,
        {| reviews := reviews db;
           products := <[product_id :=
             ProductModel.set_rating (py_round2 (py_float avg_rating)) product]>
             (products db) |});;
      commit;;
      refresh
  | None => mret tt
  end.

(** ** [get_all_reviews] *)

Definition get_all_reviews : M (list ReviewModel.t) :=
  query (λ db, filter (λ r, ReviewModel.is_active r = true) (reviews db)).

(** ** [create_review] *)

Definition create_review (review : ReviewCreate.t) (current_user : UserModel.t)
  : M ReviewModel.t :=
  product ← query (λ db,
    match products db !! ReviewCreate.product_id review with
    | Some p => if ProductModel.is_active p then Some p else None
    | None => None
    end);
  match product with
  | None =>
      raise {| status_code := HTTP_404_NOT_FOUND;
               detail := "Product not found or inactive" |}
  | Some _ =>
      existing_review ← query (λ db,
        head (filter (λ r, ReviewModel.user_id r = UserModel.id current_user
                           ∧ ReviewModel.product_id r = ReviewCreate.product_id review
                           ∧ ReviewModel.is_active r = true) (reviews db)));
      match existing_review with
      | Some _ =>
          raise {| status_code := HTTP_400_BAD_REQUEST;
                   detail := "You have already left a review for this product" |}
      | None =>
          db_review ← query (λ db,
            {| ReviewModel.id := next_id (reviews db);
               ReviewModel.user_id := UserModel.id current_user;
               ReviewModel.product_id := ReviewCreate.product_id review;
               ReviewModel.comment := ReviewCreate.comment review;
               ReviewModel.grade := ReviewCreate.grade review;
               ReviewModel.is_active := true |});
          execute (λ db,
            {| reviews := reviews db ++ [db_review];
               products := products db |});;
          commit;;
          refresh;;
          update_product_rating (ReviewCreate.product_id review);;
          mret db_review
      end
  end.

(** ** [delete_review] *)

Definition delete_review (review_id : Z) (current_user : UserModel.t)
  : M (list (string * string)) :=
  review ← query (λ db,
    head (filter (λ r, ReviewModel.id r = review_id
                       ∧ ReviewModel.is_active r = true) (reviews db)));
  match review with
  | None =>
      raise {| status_code := HTTP_404_NOT_FOUND;
               detail := "Review not found or already inactive" |}
  | Some review =>
      let product_id := ReviewModel.product_id review in
      execute (λ db,
        {| reviews :=
             (λ r, if decide (ReviewModel.id r = review_id)
                   then ReviewModel.deactivate r else r) <$> reviews db;
           products := products db |});;
      commit;;
      update_product_rating product_id;;
      mret [("message", "Review deleted")]
  end.

(** ** Requests and runs *)

Inductive Request : Type :=
  | GetAllReviews
  | CreateReview (review : ReviewCreate.t) (current_user : UserModel.t)
  | DeleteReview (review_id : Z) (current_user : UserModel.t)
  | UpdateProductRating (product_id : Z).

(** One request, its response dropped. *)
Definition handle (req : Request) : M unit :=
  match req with
  | GetAllReviews => get_all_reviews;; mret tt
  | CreateReview review current_user => create_review review current_user;; mret tt
  | DeleteReview review_id current_user => delete_review review_id current_user;; mret tt
  | UpdateProductRating product_id => update_product_rating product_id
  end.

(** The database after a request, whether it was answered or raised. *)
Definition exec (req : Request) (db : DB) : DB := (handle req db).2.

Definition exec_all (reqs : list Request) (db : DB) : DB :=
  foldl (λ db req, exec req db) db reqs.


(** ** State predicates *)

(** The rating the specification prescribes for a product: the mean grade
    of its active reviews rounded to two decimals, [0.0] without any.  The
    rounding is that of the language, [round] on the float of the mean. *)
Definition spec_rating (product_id : Z) (rs : list ReviewModel.t) : Q :=
  match ReviewModel.grade <$> active_reviews_of product_id rs with
  | [] => 0%Q
  | gs => py_round2 (py_float (sum_Z gs # Pos.of_nat (length gs))%Q)
  end.


(** The primary key of the [reviews] table. *)
Definition review_ids_unique (db : DB) : Prop :=
  NoDup (ReviewModel.id <$> reviews db).

(** At most one active review per (user, product) pair; rows are told
    apart by their position in the table. *)
Definition one_active_review_per_pair (rs : list ReviewModel.t) : Prop :=
  ∀ i j r1 r2,
    rs !! i = Some r1 → rs !! j = Some r2 →
    ReviewModel.is_active r1 = true → ReviewModel.is_active r2 = true →
    ReviewModel.user_id r1 = ReviewModel.user_id r2 →
    ReviewModel.product_id r1 = ReviewModel.product_id r2 →
    i = j.

(** The caller already has an active review for the product. *)
Definition has_active_review (uid pid : Z) (rs : list ReviewModel.t) : Prop :=
  ∃ r, r ∈ rs ∧ ReviewModel.user_id r = uid
       ∧ ReviewModel.product_id r = pid ∧ ReviewModel.is_active r = true.

(** ** The handlers in closed form *)

(** What [update_product_rating] writes. *)
Definition recomputed_rating (product_id : Z) (rs : list ReviewModel.t) : Q :=
  py_round2 (py_float (scalar_or_zero
    (avg (ReviewModel.grade <$> active_reviews_of product_id rs)))).

Definition with_rating (product_id : Z) (db : DB) : DB :=
  match products db !! product_id with
  | Some p =>
      {| reviews := reviews db;
         products := <[product_id :=
           ProductModel.set_rating (recomputed_rating product_id (reviews db)) p]>
           (products db) |}
  | None => db
  end.

Definition new_review (review : ReviewCreate.t) (current_user : UserModel.t)
    (rs : list ReviewModel.t) : ReviewModel.t :=
  {| ReviewModel.id := next_id rs;
     ReviewModel.user_id := UserModel.id current_user;
     ReviewModel.product_id := ReviewCreate.product_id review;
     ReviewModel.comment := ReviewCreate.comment review;
     ReviewModel.grade := ReviewCreate.grade review;
     ReviewModel.is_active := true |}.

Definition soft_delete (review_id : Z) (rs : list ReviewModel.t)
  : list ReviewModel.t :=
  (λ r, if decide (ReviewModel.id r = review_id)
        then ReviewModel.deactivate r else r) <$> rs.

Definition not_found_product : HTTPException :=
  {| status_code := 404; detail := "Product not found or inactive" |}.
Definition already_reviewed : HTTPException :=
  {| status_code := 400;
     detail := "You have already left a review for this product" |}.
Definition not_found_review : HTTPException :=
  {| status_code := 404; detail := "Review not found or already inactive" |}.

(** The grades averaged by [update_product_rating], and their exact mean
    (for a non-empty list). *)
Definition active_grades (product_id : Z) (rs : list ReviewModel.t) : list Z :=
  ReviewModel.grade <$> active_reviews_of product_id rs.

Definition mean (gs : list Z) : Q := (sum_Z gs # Pos.of_nat (length gs))%Q.

(** ** Example databases *)

Definition product_P : ProductModel.t :=
  {| ProductModel.rating := 0%Q; ProductModel.is_active := true |}.

(** One active product, key 7, and no review yet. *)
Definition shop : DB := {| reviews := []; products := {[ 7 := product_P ]} |}.

Definition buyer_A : UserModel.t := UserModel.mk 1.
Definition buyer_B : UserModel.t := UserModel.mk 2.
Definition admin : UserModel.t := UserModel.mk 99.

Definition review_A : ReviewModel.t := ReviewModel.mk 1 1 7 "good" 4 true.
Definition review_B : ReviewModel.t := ReviewModel.mk 2 2 7 "great" 5 true.


(** The shop after A's review. *)
Definition shop_reviewed : DB :=
  {| reviews := [review_A];
     products := {[ 7 := {| ProductModel.rating := 4%Q;
                            ProductModel.is_active := true |} ]} |}.

(** The same tables once product 7 has been deactivated: A's review is
    still active. *)
Definition shop_closed : DB :=
  {| reviews := [review_A];
     products := {[ 7 := {| ProductModel.rating := 4%Q;
                            ProductModel.is_active := false |} ]} |}.

(** The shop at the end of [scenario]. *)
Definition shop_after : DB :=
  {| reviews := [ReviewModel.deactivate review_A; review_B];
     products := {[ 7 := {| ProductModel.rating := 5%Q;
                            ProductModel.is_active := true |} ]} |}.

(** Requests that follow the scenario: A reviews product 7 again, the admin
    asks once more for the deletion of review 1, and so on. *)
Definition follow_up : list Request :=
  [ CreateReview (ReviewCreate.mk 7 "better" 3) buyer_A;
    DeleteReview 1 admin;
    UpdateProductRating 7;
    GetAllReviews;
    DeleteReview 3 admin ].

(** The shop after the reviews of A and B, before any deletion. *)
Definition shop_rated : DB :=
  {| reviews := [review_A; review_B];
     products := {[ 7 := {| ProductModel.rating := (9 # 2)%Q;
                            ProductModel.is_active := true |} ]} |}.

(** A table whose only review is for a product that has no row any more. *)
Definition shop_orphan : DB := {| reviews := [review_A]; products := ∅ |}.


(** ** Proof tools *)

Ltac unfold_M :=
  cbv beta iota delta
    [mbind M_bind mret M_ret raise query execute commit refresh].

Lemma update_product_rating_run pid db :
  update_product_rating pid db = (inr tt, with_rating pid db).
Proof.
  unfold update_product_rating, with_rating, recomputed_rating. unfold_M.
  destruct (products db !! pid); reflexivity.
Qed.

Lemma create_review_run review u db :
  create_review review u db =
  let pid := ReviewCreate.product_id review in
  match products db !! pid with
  | Some p =>
      if ProductModel.is_active p then
        match filter (λ r, ReviewModel.user_id r = UserModel.id u
                           ∧ ReviewModel.product_id r = pid
                           ∧ ReviewModel.is_active r = true) (reviews db) with
        | [] =>
            (inr (new_review review u (reviews db)),
             with_rating pid
               {| reviews := reviews db ++ [new_review review u (reviews db)];
                  products := products db |})
        | _ :: _ => (inl already_reviewed, db)
        end
      else (inl not_found_product, db)
  | None => (inl not_found_product, db)
  end.
Proof.
  unfold create_review. unfold_M. cbv zeta.
  destruct (products db !! ReviewCreate.product_id review) as [p|]; [|reflexivity].
  destruct (ProductModel.is_active p); [|reflexivity].
  destruct (filter _ (reviews db)) as [|r0 rs0]; [|reflexivity].
  cbn [head]. fold (new_review review u (reviews db)).
  change (update_product_rating ?pid ?d) with (update_product_rating pid d).
  rewrite update_product_rating_run. reflexivity.
Qed.

Lemma delete_review_run rid u db :
  delete_review rid u db =
  match filter (λ r, ReviewModel.id r = rid
                     ∧ ReviewModel.is_active r = true) (reviews db) with
  | [] => (inl not_found_review, db)
  | review :: _ =>
      (inr [("message", "Review deleted")],
       with_rating (ReviewModel.product_id review)
         {| reviews := soft_delete rid (reviews db); products := products db |})
  end.
Proof.
  unfold delete_review. unfold_M.
  destruct (filter _ (reviews db)) as [|r0 rs0]; [reflexivity|].
  cbn [head]. rewrite update_product_rating_run. reflexivity.
Qed.

Lemma get_all_reviews_run db :
  get_all_reviews db =
  (inr (filter (λ r, ReviewModel.is_active r = true) (reviews db)), db).
Proof. reflexivity. Qed.

Lemma reviews_with_rating pid db : reviews (with_rating pid db) = reviews db.
Proof. unfold with_rating. destruct (products db !! pid); reflexivity. Qed.

(** [round2] on a few values: 4.5 is kept, the tie 0.125 goes to 0.12,
    the tie 0.375 to 0.38, and 14/3 to 4.67. *)
Example round2_values :
  round2 (9 # 2) = (9 # 2)%Q ∧ round2 (1 # 8) = (3 # 25)%Q
  ∧ round2 (3 # 8) = (19 # 50)%Q ∧ round2 (14 # 3) = (467 # 100)%Q.
Proof. repeat split; reflexivity. Qed.

(** ** Failure paths *)

(** C4: [create_review] for a product that does not exist, or that exists
    with [is_active = false], raises 404 Not Found (and writes nothing). *)
Theorem create_review_product_not_found review u db :
  (products db !! ReviewCreate.product_id review = None
   ∨ ∃ p, products db !! ReviewCreate.product_id review = Some p
          ∧ ProductModel.is_active p = false) →
  create_review review u db =
  (inl {| status_code := 404; detail := "Product not found or inactive" |}, db).
Proof.
  intros H. rewrite create_review_run. cbv zeta.
  destruct H as [-> | (p & -> & ->)]; reflexivity.
Qed.

Lemma create_review_product_not_found_witness :
  create_review (ReviewCreate.mk 7 "again" 5) buyer_B shop_closed =
  (inl {| status_code := 404; detail := "Product not found or inactive" |},
   shop_closed)
  ∧ create_review (ReviewCreate.mk 8 "first" 3) buyer_B shop =
    (inl {| status_code := 404; detail := "Product not found or inactive" |},
     shop).
Proof.
  split.
  - apply (create_review_product_not_found (ReviewCreate.mk 7 "again" 5)
             buyer_B shop_closed).
    right. eexists. split; reflexivity.
  - apply (create_review_product_not_found (ReviewCreate.mk 8 "first" 3)
             buyer_B shop).
    left. reflexivity.
Defined.

(** C10: a [create_review] call that raises (404 or 400) leaves the
    database as it was: no review row inserted, no rating written. *)
Theorem create_review_failure_atomic review u db e db' :
  create_review review u db = (inl e, db') →
  db' = db
  ∧ reviews db' = reviews db
  ∧ products db' = products db
  ∧ (status_code e = 404 ∨ status_code e = 400).
Proof.
  rewrite create_review_run. cbv zeta. intros H.
  assert (db' = db ∧ (status_code e = 404 ∨ status_code e = 400)) as [-> He].
  { destruct (products db !! ReviewCreate.product_id review) as [p|].
    - destruct (ProductModel.is_active p).
      + destruct (filter _ (reviews db)); [discriminate|].
        inversion H; subst. split; [reflexivity|]. right. reflexivity.
      + inversion H; subst. split; [reflexivity|]. left. reflexivity.
    - inversion H; subst. split; [reflexivity|]. left. reflexivity. }
  repeat split; assumption.
Qed.

Lemma create_review_failure_atomic_witness :
  create_review (ReviewCreate.mk 7 "again" 5) buyer_A shop_reviewed =
  (inl already_reviewed, shop_reviewed)
  ∧ (status_code already_reviewed = 404 ∨ status_code already_reviewed = 400).
Proof.
  assert (create_review (ReviewCreate.mk 7 "again" 5) buyer_A shop_reviewed =
          (inl already_reviewed, shop_reviewed)) as H by reflexivity.
  split; [exact H|].
  exact (proj2 (proj2 (proj2 (create_review_failure_atomic _ _ _ _ _ H)))).
Defined.

(** C6: [update_product_rating] for a key with no product row returns
    normally and changes nothing. *)
Theorem update_product_rating_missing_product pid db :
  products db !! pid = None →
  update_product_rating pid db = (inr tt, db).
Proof.
  intros H. rewrite update_product_rating_run. unfold with_rating.
  rewrite H. reflexivity.
Qed.

Lemma update_product_rating_missing_product_witness :
  update_product_rating 8 shop_reviewed = (inr tt, shop_reviewed).
Proof.
  apply (update_product_rating_missing_product 8 shop_reviewed). reflexivity.
Defined.

(** C2, as stated, fails: in [shop_closed] buyer A has an active review
    for product 7, yet a second [create_review] for product 7 is answered
    with 404, not 400, because the product check comes first. *)
Lemma create_review_duplicate_not_always_conflict :
  has_active_review (UserModel.id buyer_A) 7 (reviews shop_closed)
  ∧ ¬ ∃ e db',
        create_review (ReviewCreate.mk 7 "again" 5) buyer_A shop_closed
          = (inl e, db')
        ∧ status_code e = 400.
Proof.
  split.
  - exists review_A. repeat split. apply list_elem_of_here.
  - intros (e & db' & H & He).
    assert (create_review (ReviewCreate.mk 7 "again" 5) buyer_A shop_closed =
            (inl not_found_product, shop_closed)) as Hrun by reflexivity.
    rewrite Hrun in H. inversion H; subst e. discriminate He.
Qed.

(** C2, amended: a caller who already has an active review for a product
    never gets a second one inserted.  The call raises 400 when the product
    exists and is active, and 404 when the product is missing or inactive;
    either way the database is unchanged. *)
Theorem create_review_duplicate_rejected review u db :
  has_active_review (UserModel.id u) (ReviewCreate.product_id review)
    (reviews db) →
  ∃ e, create_review review u db = (inl e, db)
       ∧ status_code e =
         match products db !! ReviewCreate.product_id review with
         | Some p => if ProductModel.is_active p then 400 else 404
         | None => 404
         end.
Proof.
  intros (r & Hin & Hu & Hp & Ha). rewrite create_review_run. cbv zeta.
  destruct (products db !! ReviewCreate.product_id review) as [p|];
    [|eexists; split; reflexivity].
  destruct (ProductModel.is_active p); [|eexists; split; reflexivity].
  destruct (filter _ (reviews db)) as [|r0 rs0] eqn:Hf;
    [|eexists; split; reflexivity].
  exfalso. eapply (filter_nil_not_elem_of _ _ r Hf); [|exact Hin].
  repeat split; assumption.
Qed.

Lemma create_review_duplicate_rejected_witness :
  ∃ e, create_review (ReviewCreate.mk 7 "again" 5) buyer_A shop_reviewed
         = (inl e, shop_reviewed)
       ∧ status_code e = 400.
Proof.
  apply (create_review_duplicate_rejected
           (ReviewCreate.mk 7 "again" 5) buyer_A shop_reviewed).
  exists review_A. repeat split. apply list_elem_of_here.
Defined.

(** ** Listing *)

(** C9: [get_all_reviews] answers with exactly the active rows of the
    table, in table order, whatever the [products] table holds (so reviews
    of inactive or deleted products are listed too); every active row is
    there as often as in the table, and the database is not changed. *)
Theorem get_all_reviews_exactly_active db :
  ∃ rs, get_all_reviews db = (inr rs, db)
        ∧ (∀ r, r ∈ rs ↔ r ∈ reviews db ∧ ReviewModel.is_active r = true)
        ∧ sublist rs (reviews db)
        ∧ (∀ r, ReviewModel.is_active r = true →
             length (filter (λ x, x = r) rs)
             = length (filter (λ x, x = r) (reviews db)))
        ∧ (∀ db2, reviews db2 = reviews db →
             (get_all_reviews db2).1 = (inr rs : HTTPException + _)).
Proof.
  eexists. split; [apply get_all_reviews_run|].
  split; [|split; [|split]].
  - intros r. rewrite list_elem_of_filter. tauto.
  - apply sublist_filter.
  - intros r Hr. induction (reviews db) as [|x l IH]; [reflexivity|].
    rewrite (filter_cons (λ r, ReviewModel.is_active r = true)).
    rewrite (filter_cons (λ x, x = r) x l).
    destruct (decide (x = r)) as [->|Hne].
    + destruct (decide (ReviewModel.is_active r = true)); [|contradiction].
      rewrite filter_cons_True by reflexivity. cbn [length]. by rewrite IH.
    + destruct (decide (ReviewModel.is_active x = true)); [|exact IH].
      rewrite filter_cons_False by exact Hne. exact IH.
  - intros db2 H2. rewrite get_all_reviews_run. cbn. by rewrite H2.
Qed.

(** ** Soft deletion *)

Lemma soft_delete_lookup rid (rs : list ReviewModel.t) k :
  soft_delete rid rs !! k =
  (λ r, if decide (ReviewModel.id r = rid)
        then ReviewModel.deactivate r else r) <$> rs !! k.
Proof. apply list_lookup_fmap. Qed.

Lemma deactivate_inactive r :
  ReviewModel.is_active r = false → ReviewModel.deactivate r = r.
Proof. destruct r; cbn; intros ->; reflexivity. Qed.

Lemma soft_delete_length rid rs : length (soft_delete rid rs) = length rs.
Proof. apply length_fmap. Qed.

(** C5: [delete_review] raises 404 Not Found when no row has the key
    [review_id] or when the row with that key is inactive.  When it
    succeeds no row is removed: the table keeps its length, and at every
    position the row keeps its key, owner, product, comment and grade;
    [is_active] becomes [false] on the row with key [review_id] and is
    unchanged elsewhere. *)
Theorem delete_review_soft rid u db :
  ((∀ r, r ∈ reviews db → ReviewModel.id r = rid →
         ReviewModel.is_active r = false) →
   delete_review rid u db =
   (inl {| status_code := 404;
           detail := "Review not found or already inactive" |}, db))
  ∧ (∀ m db', delete_review rid u db = (inr m, db') →
       length (reviews db') = length (reviews db)
       ∧ ∀ k r, reviews db !! k = Some r →
           ∃ r', reviews db' !! k = Some r'
             ∧ ReviewModel.id r' = ReviewModel.id r
             ∧ ReviewModel.user_id r' = ReviewModel.user_id r
             ∧ ReviewModel.product_id r' = ReviewModel.product_id r
             ∧ ReviewModel.comment r' = ReviewModel.comment r
             ∧ ReviewModel.grade r' = ReviewModel.grade r
             ∧ ReviewModel.is_active r' =
               (if decide (ReviewModel.id r = rid) then false
                else ReviewModel.is_active r)).
Proof.
  rewrite delete_review_run. split.
  - intros Hall.
    destruct (filter _ (reviews db)) as [|r0 rs0] eqn:Hf; [reflexivity|].
    assert (r0 ∈ filter (λ r, ReviewModel.id r = rid
                              ∧ ReviewModel.is_active r = true) (reviews db))
      as Hin by (rewrite Hf; apply list_elem_of_here).
    apply list_elem_of_filter in Hin as [[Hid Hact] Hin].
    rewrite (Hall r0 Hin Hid) in Hact. discriminate.
  - intros m db' H.
    destruct (filter _ (reviews db)) as [|r0 rs0]; [discriminate|].
    inversion H; subst. rewrite reviews_with_rating. cbn [reviews].
    split; [apply soft_delete_length|].
    intros k r Hk. rewrite soft_delete_lookup, Hk. cbn.
    eexists. split; [reflexivity|].
    destruct (decide (ReviewModel.id r = rid)); repeat split.
Qed.

Lemma delete_review_soft_witness :
  delete_review 1 admin shop_after =
  (inl {| status_code := 404;
          detail := "Review not found or already inactive" |}, shop_after)
  ∧ ∃ r', reviews (delete_review 2 admin shop_after).2 !! 1%nat = Some r'
          ∧ ReviewModel.grade r' = 5
          ∧ ReviewModel.is_active r' = false.
Proof.
  split.
  - apply (proj1 (delete_review_soft 1 admin shop_after)).
    intros r Hin Hid.
    apply elem_of_cons in Hin as [-> | Hin]; [reflexivity|].
    apply elem_of_cons in Hin as [-> | Hin]; [discriminate Hid|].
    inversion Hin.
  - eassert (delete_review 2 admin shop_after = (inr _, _)) as Hrun
      by (vm_compute; reflexivity).
    destruct (proj2 (delete_review_soft 2 admin shop_after) _ _ Hrun)
      as [_ Hrows].
    destruct (Hrows 1%nat review_B eq_refl)
      as (r' & Hr' & _ & _ & _ & _ & Hg & Ha).
    exists r'. repeat split; [| exact Hg | exact Ha].
    exact Hr'.
Defined.

(** ** What a request does to the [reviews] table *)

Lemma exec_get_all db : exec GetAllReviews db = db.
Proof. reflexivity. Qed.

Lemma exec_create review u db :
  exec (CreateReview review u) db = (create_review review u db).2.
Proof.
  unfold exec, handle. unfold_M.
  destruct (create_review review u db) as [[e|a] db']; reflexivity.
Qed.

Lemma exec_delete rid u db :
  exec (DeleteReview rid u) db = (delete_review rid u db).2.
Proof.
  unfold exec, handle. unfold_M.
  destruct (delete_review rid u db) as [[e|a] db']; reflexivity.
Qed.

Lemma exec_update pid db :
  exec (UpdateProductRating pid) db = with_rating pid db.
Proof. unfold exec, handle. by rewrite update_product_rating_run. Qed.

(** A request leaves the table alone, appends one new active row for a
    (user, product) pair without an active row, or soft-deletes by key. *)
Lemma exec_reviews_cases req db :
  reviews (exec req db) = reviews db
  ∨ (∃ review u,
       filter (λ r, ReviewModel.user_id r = UserModel.id u
                    ∧ ReviewModel.product_id r = ReviewCreate.product_id review
                    ∧ ReviewModel.is_active r = true) (reviews db) = []
       ∧ reviews (exec req db) = reviews db ++ [new_review review u (reviews db)])
  ∨ (∃ rid, reviews (exec req db) = soft_delete rid (reviews db)).
Proof.
  destruct req as [|review u|rid u|pid].
  - left. reflexivity.
  - rewrite exec_create, create_review_run. cbv zeta.
    destruct (products db !! ReviewCreate.product_id review) as [p|];
      [|by left].
    destruct (ProductModel.is_active p); [|by left].
    destruct (filter _ (reviews db)) as [|r0 rs0] eqn:Hf; [|by left].
    right. left. exists review, u. split; [exact Hf|].
    cbn [snd]. by rewrite reviews_with_rating.
  - rewrite exec_delete, delete_review_run.
    destruct (filter _ (reviews db)) as [|r0 rs0]; [by left|].
    right. right. exists rid. cbn [snd]. by rewrite reviews_with_rating.
  - left. rewrite exec_update. apply reviews_with_rating.
Qed.

Lemma exec_keeps_inactive req db k r :
  reviews db !! k = Some r → ReviewModel.is_active r = false →
  reviews (exec req db) !! k = Some r.
Proof.
  intros Hk Hr.
  destruct (exec_reviews_cases req db)
    as [-> | [(review & u & _ & ->) | (rid & ->)]].
  - exact Hk.
  - by apply lookup_app_l_Some.
  - rewrite soft_delete_lookup, Hk. cbn.
    destruct (decide _); [|reflexivity]. by rewrite deactivate_inactive.
Qed.

(** C8: a review row that is inactive stays inactive.  Through any
    sequence of requests to [get_all_reviews], [create_review],
    [delete_review] and [update_product_rating], answered or refused, the
    row at the same place in the table is the same row, [is_active = false]
    included. *)
Theorem inactive_review_never_reactivated reqs db k r :
  reviews db !! k = Some r → ReviewModel.is_active r = false →
  reviews (exec_all reqs db) !! k = Some r
  ∧ ∀ r', reviews (exec_all reqs db) !! k = Some r' →
          ReviewModel.is_active r' = false.
Proof.
  intros Hk Hr.
  assert (reviews (exec_all reqs db) !! k = Some r) as H.
  { revert db Hk. induction reqs as [|req reqs IH]; intros db Hk; [exact Hk|].
    cbn [exec_all foldl]. apply IH. by apply exec_keeps_inactive. }
  split; [exact H|]. intros r' Hr'. congruence.
Qed.

Lemma inactive_review_never_reactivated_witness :
  reviews (exec_all follow_up shop_after) !! 0%nat
  = Some (ReviewModel.deactivate review_A).
Proof.
  apply (inactive_review_never_reactivated follow_up shop_after 0%nat
           (ReviewModel.deactivate review_A));
    reflexivity.
Defined.

(** ** At most one active review per user and product *)

Lemma one_active_app rs r :
  filter (λ x, ReviewModel.user_id x = ReviewModel.user_id r
               ∧ ReviewModel.product_id x = ReviewModel.product_id r
               ∧ ReviewModel.is_active x = true) rs = [] →
  one_active_review_per_pair rs →
  one_active_review_per_pair (rs ++ [r]).
Proof.
  intros Hf Hrs i j r1 r2 Hi Hj A1 A2 Hu Hp.
  assert (∀ k x, rs !! k = Some x → ReviewModel.is_active x = true →
            ReviewModel.user_id x = ReviewModel.user_id r →
            ReviewModel.product_id x = ReviewModel.product_id r → False)
    as Hnone.
  { intros k x Hk Ax Hux Hpx.
    eapply (filter_nil_not_elem_of _ _ x Hf); [repeat split; assumption|].
    apply list_elem_of_lookup. by exists k. }
  apply lookup_snoc_Some in Hi as [[Hi1 Hi2] | [-> ->]];
    apply lookup_snoc_Some in Hj as [[Hj1 Hj2] | [-> ->]].
  - by apply (Hrs i j r1 r2).
  - exfalso. by apply (Hnone i r1).
  - exfalso. apply (Hnone j r2); congruence.
  - reflexivity.
Qed.

Lemma one_active_soft_delete rid rs :
  one_active_review_per_pair rs →
  one_active_review_per_pair (soft_delete rid rs).
Proof.
  intros Hrs i j r1 r2 Hi Hj A1 A2 Hu Hp.
  rewrite soft_delete_lookup in Hi, Hj.
  destruct (rs !! i) as [x1|] eqn:E1; [|discriminate].
  destruct (rs !! j) as [x2|] eqn:E2; [|discriminate].
  cbn in Hi, Hj.
  destruct (decide (ReviewModel.id x1 = rid));
    [inversion Hi; subst r1; discriminate A1|].
  destruct (decide (ReviewModel.id x2 = rid));
    [inversion Hj; subst r2; discriminate A2|].
  inversion Hi; inversion Hj; subst. by apply (Hrs i j r1 r2).
Qed.

Lemma exec_one_active req db :
  one_active_review_per_pair (reviews db) →
  one_active_review_per_pair (reviews (exec req db)).
Proof.
  intros H.
  destruct (exec_reviews_cases req db)
    as [-> | [(review & u & Hf & ->) | (rid & ->)]].
  - exact H.
  - apply one_active_app; [exact Hf | exact H].
  - by apply one_active_soft_delete.
Qed.

(** C3: if at most one review is active per (user, product) pair, the same
    holds after any sequence of requests, whether each is answered or
    refused: [create_review] appends a row only when the pair has no active
    row, and [delete_review] only deactivates. *)
Theorem one_active_review_invariant reqs db :
  one_active_review_per_pair (reviews db) →
  one_active_review_per_pair (reviews (exec_all reqs db)).
Proof.
  revert db. induction reqs as [|req reqs IH]; intros db H; [exact H|].
  cbn [exec_all foldl]. apply IH. by apply exec_one_active.
Qed.

Lemma one_active_review_invariant_witness :
  one_active_review_per_pair (reviews (exec_all follow_up shop_reviewed)).
Proof.
  apply (one_active_review_invariant follow_up shop_reviewed).
  intros [|i] [|j] r1 r2 Hi Hj; try discriminate. reflexivity.
Defined.

(** ** The rating written by [update_product_rating] *)

Lemma round2_zero_num d : py_round2 (py_float (0 # d)) = 0%Q.
Proof. reflexivity. Qed.

(** The code's [round(float(avg or 0.0), 2)] is the rating of the
    specification: a falsy zero average and the float [0.0] round alike. *)
Lemma recomputed_rating_spec pid rs :
  recomputed_rating pid rs = spec_rating pid rs.
Proof.
  unfold recomputed_rating, spec_rating.
  destruct (ReviewModel.grade <$> active_reviews_of pid rs) as [|g gs];
    [reflexivity|].
  cbn [avg scalar_or_zero].
  destruct (Qeq_bool _ 0) eqn:E; [|reflexivity].
  apply Qeq_bool_eq in E. unfold Qeq in E. cbn [Qnum Qden] in E.
  assert (sum_Z (g :: gs) = 0) as -> by lia.
  by rewrite round2_zero_num.
Qed.



(** ** The primary key of [reviews] *)

Lemma ids_unique_inj rs r r' :
  NoDup (ReviewModel.id <$> rs) → r ∈ rs → r' ∈ rs →
  ReviewModel.id r = ReviewModel.id r' → r = r'.
Proof.
  induction rs as [|x rs IH]; intros Hnd Hr Hr' Hid; [inversion Hr|].
  rewrite fmap_cons in Hnd. apply NoDup_cons in Hnd as [Hx Hnd].
  apply elem_of_cons in Hr as [-> | Hr];
    apply elem_of_cons in Hr' as [-> | Hr'].
  - reflexivity.
  - exfalso. apply Hx. rewrite Hid. by apply list_elem_of_fmap_2.
  - exfalso. apply Hx. rewrite <- Hid. by apply list_elem_of_fmap_2.
  - by apply IH.
Qed.

Lemma next_id_above rs r : r ∈ rs → ReviewModel.id r < next_id rs.
Proof.
  unfold next_id. induction rs as [|x rs IH]; intros Hr; [inversion Hr|].
  rewrite fmap_cons. cbn [foldr].
  apply elem_of_cons in Hr as [-> | Hr]; [lia|].
  specialize (IH Hr). lia.
Qed.



(** ** The rating invariant *)







(** ** The answered paths *)

Lemma filter_none {A} (P : A → Prop) `{∀ x, Decision (P x)} (l : list A) :
  (∀ x, x ∈ l → ¬ P x) → filter P l = [].
Proof.
  induction l as [|x l IH]; intros Hl; [reflexivity|].
  rewrite filter_cons_False by (apply Hl, list_elem_of_here).
  apply IH. intros y Hy. apply Hl. by apply elem_of_cons; right.
Qed.

Lemma create_review_answered review u db p :
  products db !! ReviewCreate.product_id review = Some p →
  ProductModel.is_active p = true →
  filter (λ r, ReviewModel.user_id r = UserModel.id u
               ∧ ReviewModel.product_id r = ReviewCreate.product_id review
               ∧ ReviewModel.is_active r = true) (reviews db) = [] →
  create_review review u db =
  (inr (new_review review u (reviews db)),
   {| reviews := reviews db ++ [new_review review u (reviews db)];
      products := <[ReviewCreate.product_id review :=
        ProductModel.set_rating
          (recomputed_rating (ReviewCreate.product_id review)
             (reviews db ++ [new_review review u (reviews db)])) p]>
        (products db) |}).
Proof.
  intros Hp Ha Hf. rewrite create_review_run. cbv zeta.
  rewrite Hp, Ha, Hf. unfold with_rating. cbn [reviews products].
  by rewrite Hp.
Qed.

Lemma delete_review_answered rid u db r rest p :
  filter (λ r, ReviewModel.id r = rid
               ∧ ReviewModel.is_active r = true) (reviews db) = r :: rest →
  products db !! ReviewModel.product_id r = Some p →
  delete_review rid u db =
  (inr [("message", "Review deleted")],
   {| reviews := soft_delete rid (reviews db);
      products := <[ReviewModel.product_id r :=
        ProductModel.set_rating
          (recomputed_rating (ReviewModel.product_id r)
             (soft_delete rid (reviews db))) p]> (products db) |}).
Proof.
  intros Hf Hp. rewrite delete_review_run, Hf.
  unfold with_rating. cbn [reviews products]. by rewrite Hp.
Qed.

Lemma active_reviews_of_none P rs :
  (∀ r, r ∈ rs → ReviewModel.product_id r ≠ P) → active_reviews_of P rs = [].
Proof.
  intros H. apply filter_none. intros r Hr [Hp _]. by apply (H r).
Qed.

Lemma soft_delete_product rid rs r :
  r ∈ soft_delete rid rs →
  ∃ r0, r0 ∈ rs ∧ ReviewModel.product_id r = ReviewModel.product_id r0.
Proof.
  intros Hr. apply list_elem_of_fmap in Hr as (r0 & -> & Hr0).
  exists r0. split; [exact Hr0|]. by destruct (decide _).
Qed.

(** ** The worked scenario *)

(** C7: let [P] be an active product without any review.  Buyer A posts a
    review with grade 4: the call is answered and the rating of [P] is
    [4.0].  Buyer B then posts a review with grade 5: the rating is [4.5].
    An admin then deletes A's review: the rating is [5.0].  This holds
    whatever else the tables hold and whatever rating [P] starts with
    ([0.0] for a product without reviews), for any two distinct buyers. *)
Theorem rating_scenario db P p a b adm ca cb :
  products db !! P = Some p →
  ProductModel.is_active p = true →
  (∀ r, r ∈ reviews db → ReviewModel.product_id r ≠ P) →
  UserModel.id a ≠ UserModel.id b →
  ∃ rA db1 rB db2 m db3,
    create_review (ReviewCreate.mk P ca 4) a db = (inr rA, db1)
    ∧ ProductModel.rating <$> products db1 !! P = Some 4%Q
    ∧ create_review (ReviewCreate.mk P cb 5) b db1 = (inr rB, db2)
    ∧ ProductModel.rating <$> products db2 !! P = Some (9 # 2)%Q
    ∧ delete_review (ReviewModel.id rA) adm db2 = (inr m, db3)
    ∧ ProductModel.rating <$> products db3 !! P = Some 5%Q.
Proof.
  intros Hp Hact Hnone Hab.
  set (rs := reviews db) in *.
  set (rA := new_review (ReviewCreate.mk P ca 4) a rs).
  set (rB := new_review (ReviewCreate.mk P cb 5) b (rs ++ [rA])).
  assert (active_reviews_of P rs = []) as Hrs
    by (by apply active_reviews_of_none).
  assert (ReviewModel.id rA < ReviewModel.id rB) as HAB.
  { change (ReviewModel.id rB) with (next_id (rs ++ [rA])).
    apply next_id_above, elem_of_app. right. apply list_elem_of_here. }
  (* A's review *)
  eexists rA, _, rB, _, _, _.
  split.
  { apply (create_review_answered (ReviewCreate.mk P ca 4) a db p Hp Hact).
    apply filter_none. intros r Hr (_ & Hr' & _). by apply (Hnone r). }
  cbn [products reviews ReviewCreate.product_id]. fold rs. fold rA.
  split.
  { rewrite lookup_insert_eq. cbn. f_equal.
    unfold recomputed_rating, active_reviews_of. rewrite filter_app.
    fold (active_reviews_of P rs). rewrite Hrs.
    rewrite filter_cons_True by (split; reflexivity). reflexivity. }
  (* B's review *)
  split.
  { apply (create_review_answered (ReviewCreate.mk P cb 5) b).
    - cbn [products ReviewCreate.product_id]. apply lookup_insert_eq.
    - exact Hact.
    - cbn [reviews ReviewCreate.product_id]. apply filter_none.
      intros r Hr (Hu & Hr' & _).
      apply elem_of_app in Hr as [Hr | Hr]; [by apply (Hnone r)|].
      apply list_elem_of_singleton in Hr. subst r. cbn in Hu. congruence. }
  cbn [products reviews ReviewCreate.product_id]. fold rB.
  split.
  { rewrite lookup_insert_eq. cbn. f_equal.
    unfold recomputed_rating, active_reviews_of. rewrite !filter_app.
    fold (active_reviews_of P rs). rewrite Hrs.
    rewrite !filter_cons_True by (split; reflexivity). reflexivity. }
  (* the admin deletes A's review *)
  assert (soft_delete (ReviewModel.id rA) ((rs ++ [rA]) ++ [rB])
          = (soft_delete (ReviewModel.id rA) rs ++ [ReviewModel.deactivate rA])
              ++ [rB]) as Hsd.
  { unfold soft_delete. rewrite !fmap_app. cbn [fmap list_fmap].
    rewrite decide_True by reflexivity.
    rewrite decide_False by lia. reflexivity. }
  split.
  { eapply (delete_review_answered (ReviewModel.id rA) adm _ rA).
    - cbn [reviews]. rewrite !filter_app.
      rewrite (filter_none _ rs).
      + rewrite filter_cons_True by (split; reflexivity). reflexivity.
      + intros r Hr [Hid _]. apply next_id_above in Hr.
        change (ReviewModel.id rA) with (next_id rs) in Hid. lia.
    - cbn [products]. change (ReviewModel.product_id rA) with P.
      apply lookup_insert_eq. }
  cbn [products reviews]. change (ReviewModel.product_id rA) with P.
  rewrite lookup_insert_eq. cbn. f_equal.
  unfold recomputed_rating.
  change (next_id rs) with (ReviewModel.id rA). rewrite Hsd.
  unfold active_reviews_of. rewrite !filter_app.
  rewrite (filter_none _ (soft_delete _ rs)).
  - rewrite filter_cons_False by (intros [_ Hf]; discriminate Hf).
    rewrite filter_cons_True by (split; reflexivity). reflexivity.
  - intros r Hr [Hr' _].
    apply soft_delete_product in Hr as (r0 & Hr0 & Heq).
    apply (Hnone r0 Hr0). congruence.
Qed.

Lemma rating_scenario_witness :
  ∃ rA db1 rB db2 m db3,
    create_review (ReviewCreate.mk 7 "good" 4) buyer_A shop = (inr rA, db1)
    ∧ ProductModel.rating <$> products db1 !! 7 = Some 4%Q
    ∧ create_review (ReviewCreate.mk 7 "great" 5) buyer_B db1 = (inr rB, db2)
    ∧ ProductModel.rating <$> products db2 !! 7 = Some (9 # 2)%Q
    ∧ delete_review (ReviewModel.id rA) admin db2 = (inr m, db3)
    ∧ ProductModel.rating <$> products db3 !! 7 = Some 5%Q.
Proof.
  apply (rating_scenario shop 7 product_P buyer_A buyer_B admin "good" "great").
  - reflexivity.
  - reflexivity.
  - intros r Hr. inversion Hr.
  - cbn. lia.
Defined.

Lemma get_all_reviews_exactly_active_witness :
  ∃ rs, get_all_reviews shop_closed = (inr rs, shop_closed) ∧ review_A ∈ rs.
Proof.
  destruct (get_all_reviews_exactly_active shop_closed)
    as (rs & Hrun & Hmem & _).
  exists rs. split; [exact Hrun|].
  apply Hmem. split; [apply list_elem_of_here | reflexivity].
Defined.

(** * Further properties of the handlers *)

(** ** Rounding *)

Lemma rne_spec p q : 0 < q → - q ≤ 2 * (p - rne p q * q) ≤ q.
Proof.
  intros Hq. unfold rne.
  pose proof (Z.div_mod p q ltac:(lia)) as Hdm.
  pose proof (Z.mod_pos_bound p q Hq) as Hm.
  destruct (Z.ltb_spec (2 * (p mod q)) q) as [H1|H1]; [nia|].
  destruct (Z.ltb_spec q (2 * (p mod q))) as [H2|H2]; [nia|].
  destruct (Z.even (p / q)); nia.
Qed.

(** Rounding to the nearest integer never crosses an integer. *)
Lemma rne_ge p q j : 0 < q → j * q ≤ p → j ≤ rne p q.
Proof. intros Hq Hj. pose proof (rne_spec p q Hq). nia. Qed.

Lemma rne_le p q j : 0 < q → p ≤ j * q → rne p q ≤ j.
Proof. intros Hq Hj. pose proof (rne_spec p q Hq). nia. Qed.

(** [round2 d] is [k/100] for an integer [k] within one half of [100 d]. *)
Lemma round2_nearest d :
  ∃ k, round2 d = Qred (k # 100)
       ∧ - Z.pos (Qden d) ≤ 2 * (100 * Qnum d - k * Z.pos (Qden d))
         ≤ Z.pos (Qden d).
Proof.
  exists (rne (100 * Qnum d) (Z.pos (Qden d))). split; [reflexivity|].
  apply rne_spec. lia.
Qed.

Lemma round2_between d lo hi :
  (inject_Z lo <= d)%Q → (d <= inject_Z hi)%Q →
  (inject_Z lo <= round2 d ∧ round2 d <= inject_Z hi)%Q.
Proof.
  destruct (round2_nearest d) as (k & -> & Hk).
  rewrite !Qred_correct. destruct d as [a b]. cbn [Qnum Qden] in Hk.
  unfold Qle, inject_Z. cbn [Qnum Qden]. intros Hlo Hhi.
  split; nia.
Qed.

Lemma Qred_inject_Z g : Qred (inject_Z g) = inject_Z g.
Proof.
  unfold Qred, inject_Z.
  pose proof (Z.ggcd_gcd g 1) as Hg.
  pose proof (Z.ggcd_correct_divisors g 1) as Hd.
  change (Z.pos 1) with 1.
  destruct (Z.ggcd g 1) as [d [a b]]. cbn [fst snd] in *.
  rewrite Z.gcd_1_r in Hg. subst d. destruct Hd as [Ha Hb].
  assert (a = g) as -> by lia. assert (b = 1) as -> by lia. reflexivity.
Qed.

(** ** Conversion to binary64 *)

(** Below [2^53] the last mantissa bit is worth at most one: every integer
    is on the grid the float is rounded to. *)
Lemma float_exponent_small n b :
  0 < n → 0 < b → n < 2 ^ 53 * b → float_exponent n b ≤ 0.
Proof.
  intros Hn Hb Hlt. unfold float_exponent.
  set (e0 := Z.log2 n - Z.log2 b - 53).
  destruct (Z.leb_spec (2 ^ 53 * (b * 2 ^ Z.max 0 e0))
              (n * 2 ^ Z.max 0 (- e0))) as [Ht|Ht].
  - destruct (Z_le_gt_dec 0 e0) as [He|He]; [|lia]. exfalso.
    rewrite (Z.max_r 0 e0), (Z.max_l 0 (- e0)), Z.pow_0_r in Ht by lia.
    assert (0 < 2 ^ e0) by (apply Z.pow_pos_nonneg; lia). nia.
  - destruct (Z_le_gt_dec e0 0) as [He|He]; [lia|]. exfalso.
    pose proof (Z.log2_nonneg b) as Hlb.
    destruct (Z.log2_spec n Hn) as [Hn1 _].
    destruct (Z.log2_spec b Hb) as [_ Hb2].
    assert (2 ^ (Z.succ (Z.log2 b) + 53) ≤ 2 ^ Z.log2 n) as Hpow
      by (apply Z.pow_le_mono_r; unfold e0 in He; lia).
    rewrite Z.pow_add_r in Hpow by lia. nia.
Qed.

Lemma py_float_small a b :
  a ≠ 0 → Z.abs a < 2 ^ 53 * Z.pos b →
  ∃ k, 0 ≤ k
       ∧ py_float (a # b)
         = Qred (Z.sgn a * rne (Z.abs a * 2 ^ k) (Z.pos b) # Z.to_pos (2 ^ k)).
Proof.
  intros Ha Hlt. unfold py_float. cbn [Qnum Qden].
  destruct (Z.eqb_spec a 0) as [|_]; [contradiction|]. cbv zeta.
  pose proof (float_exponent_small (Z.abs a) (Z.pos b)
                ltac:(lia) ltac:(lia) Hlt) as He.
  set (e := float_exponent (Z.abs a) (Z.pos b)) in *.
  exists (- e). split; [lia|].
  rewrite (Z.max_l 0 e), (Z.max_r 0 (- e)), Z.pow_0_r, !Z.mul_1_r by lia.
  reflexivity.
Qed.

(** The results of [py_float] are in lowest terms. *)
Lemma py_float_canon x : Qred (py_float x) = py_float x.
Proof.
  unfold py_float. destruct (Qnum x =? 0); [reflexivity|]. cbv zeta.
  apply Qred_complete, Qred_correct.
Qed.

(** Conversion to a float never crosses an integer below [2^53] in
    magnitude: such integers are floats themselves. *)
Lemma py_float_between x lo hi :
  - 2 ^ 53 < lo → hi < 2 ^ 53 →
  (inject_Z lo <= x)%Q → (x <= inject_Z hi)%Q →
  (inject_Z lo <= py_float x ∧ py_float x <= inject_Z hi)%Q.
Proof.
  intros Hlo53 Hhi53. destruct x as [a b].
  unfold Qle at 1 2, inject_Z. cbn [Qnum Qden]. intros Hlo Hhi.
  destruct (Z.eq_dec a 0) as [->|Ha].
  { change (py_float (0 # b)) with 0%Q. unfold Qle. cbn [Qnum Qden]. lia. }
  destruct (py_float_small a b Ha ltac:(nia)) as (k & Hk & ->).
  rewrite !Qred_correct. unfold Qle. cbn [Qnum Qden].
  assert (0 < 2 ^ k) as HP by (apply Z.pow_pos_nonneg; lia).
  rewrite Z2Pos.id by exact HP.
  destruct (Z.lt_total a 0) as [Hneg|[?|Hpos]]; [|contradiction|].
  - rewrite (Z.sgn_neg a), (Z.abs_neq a) by lia.
    pose proof (rne_le (- a * 2 ^ k) (Z.pos b) (- lo * 2 ^ k)
                  ltac:(lia) ltac:(nia)).
    pose proof (rne_ge (- a * 2 ^ k) (Z.pos b) (- hi * 2 ^ k)
                  ltac:(lia) ltac:(nia)).
    lia.
  - rewrite (Z.sgn_pos a), (Z.abs_eq a) by lia.
    pose proof (rne_ge (a * 2 ^ k) (Z.pos b) (lo * 2 ^ k)
                  ltac:(lia) ltac:(nia)).
    pose proof (rne_le (a * 2 ^ k) (Z.pos b) (hi * 2 ^ k)
                  ltac:(lia) ltac:(nia)).
    lia.
Qed.

(** [round(float(x), 2)] stays between integer bounds of [x]. *)
Lemma rounded_between x lo hi :
  - 2 ^ 53 < lo → hi < 2 ^ 53 →
  (inject_Z lo <= x)%Q → (x <= inject_Z hi)%Q →
  (inject_Z lo <= py_round2 (py_float x)
   ∧ py_round2 (py_float x) <= inject_Z hi)%Q.
Proof.
  intros Hlo53 Hhi53 Hlo Hhi. unfold py_round2.
  destruct (py_float_between x lo hi Hlo53 Hhi53 Hlo Hhi) as [H1 H2].
  destruct (round2_between (py_float x) lo hi H1 H2) as [H3 H4].
  by apply py_float_between.
Qed.

(** An integer below [2^53] in magnitude is rounded to itself. *)
Lemma rounded_integer x g :
  - 2 ^ 53 < g < 2 ^ 53 → (x == inject_Z g)%Q →
  py_round2 (py_float x) = inject_Z g.
Proof.
  intros Hg Hx.
  destruct (rounded_between x g g) as [H1 H2];
    [lia | lia | rewrite Hx; apply Qle_refl | rewrite Hx; apply Qle_refl |].
  unfold py_round2 in *. rewrite <- py_float_canon, <- Qred_inject_Z.
  apply Qred_complete. by apply Qle_antisym.
Qed.

(** The float model on the values that tell it from decimal rounding:
    [1.225] and [2.675] are not binary64 numbers, and [2^53 + 1] is not
    one either. *)
Example rounded_values :
  py_round2 (py_float (49 # 40)) = py_float (123 # 100)
  ∧ py_round2 (py_float (107 # 40)) = py_float (267 # 100)
  ∧ py_round2 (py_float (1 # 8)) = py_float (12 # 100)
  ∧ py_float (2 ^ 53 + 1 # 1) = inject_Z (2 ^ 53)
  ∧ py_float (1 # 10) = (3602879701896397 # 36028797018963968)%Q.
Proof. repeat split; vm_compute; reflexivity. Qed.

(** ** The value written by [update_product_rating] *)

Lemma length_pos_Z {A} (x : A) (l : list A) :
  Z.pos (Pos.of_nat (length (x :: l))) = Z.of_nat (length (x :: l)).
Proof.
  rewrite <- positive_nat_Z, Nat2Pos.id by (cbn [length]; lia). reflexivity.
Qed.

Lemma sum_Z_bounds lo hi gs :
  (∀ g, g ∈ gs → lo ≤ g ≤ hi) →
  lo * Z.of_nat (length gs) ≤ sum_Z gs ≤ hi * Z.of_nat (length gs).
Proof.
  induction gs as [|g gs IH]; intros H; [cbn; lia|].
  assert (lo ≤ g ≤ hi) by (apply H, list_elem_of_here).
  assert (lo * Z.of_nat (length gs) ≤ sum_Z gs ≤ hi * Z.of_nat (length gs))
    by (apply IH; intros g' Hg'; apply H; by apply elem_of_cons; right).
  cbn [length sum_Z foldr]. fold (sum_Z gs). lia.
Qed.

Lemma spec_rating_nonempty pid rs :
  active_grades pid rs ≠ [] →
  spec_rating pid rs = py_round2 (py_float (mean (active_grades pid rs))).
Proof.
  unfold spec_rating, active_grades, mean.
  destruct (ReviewModel.grade <$> active_reviews_of pid rs); [done|reflexivity].
Qed.

(** With a product row, the helper is answered, keeps the reviews and
    writes the rating of the specification into that row. *)
Lemma update_product_rating_writes pid db p :
  products db !! pid = Some p →
  ∃ db', update_product_rating pid db = (inr tt, db')
         ∧ reviews db' = reviews db
         ∧ products db' !! pid =
           Some (ProductModel.set_rating (spec_rating pid (reviews db)) p).
Proof.
  intros Hp. eexists. split; [apply update_product_rating_run|].
  unfold with_rating. rewrite Hp. cbn [reviews products].
  split; [reflexivity|]. by rewrite lookup_insert_eq, recomputed_rating_spec.
Qed.

(** X1: when every active review of a product has its grade between the
    integers [lo] and [hi] (1 and 5, say), both below [2^53] in magnitude,
    and there is at least one active review, the rating that
    [update_product_rating] stores lies between [lo] and [hi] too: neither
    the conversion to a float nor the rounding leaves the range of the
    grades. *)
Theorem rating_within_grade_bounds pid db p lo hi :
  products db !! pid = Some p →
  active_grades pid (reviews db) ≠ [] →
  (∀ g, g ∈ active_grades pid (reviews db) → lo ≤ g ≤ hi) →
  - 2 ^ 53 < lo → hi < 2 ^ 53 →
  ∃ db' p', update_product_rating pid db = (inr tt, db')
    ∧ products db' !! pid = Some p'
    ∧ (inject_Z lo <= ProductModel.rating p'
       ∧ ProductModel.rating p' <= inject_Z hi)%Q.
Proof.
  intros Hp Hne Hgs Hlo53 Hhi53.
  destruct (update_product_rating_writes pid db p Hp) as (db' & Hrun & _ & Hp').
  exists db', (ProductModel.set_rating (spec_rating pid (reviews db)) p).
  split; [exact Hrun|]. split; [exact Hp'|]. cbn [ProductModel.rating ProductModel.set_rating].
  rewrite spec_rating_nonempty by exact Hne.
  pose proof (sum_Z_bounds lo hi _ Hgs) as Hsum.
  destruct (active_grades pid (reviews db)) as [|g gs] eqn:E; [done|].
  apply rounded_between; [exact Hlo53 | exact Hhi53 | |];
    unfold mean, Qle, inject_Z; cbn [Qnum Qden];
    rewrite length_pos_Z; lia.
Qed.

Lemma rating_within_grade_bounds_witness :
  ∃ db' p', update_product_rating 7 shop_rated = (inr tt, db')
    ∧ products db' !! 7 = Some p'
    ∧ (inject_Z 1 <= ProductModel.rating p'
       ∧ ProductModel.rating p' <= inject_Z 5)%Q.
Proof.
  eapply (rating_within_grade_bounds 7 shop_rated _ 1 5).
  - reflexivity.
  - discriminate.
  - intros g Hg. change (g ∈ [4; 5]) in Hg.
    apply elem_of_cons in Hg as [-> | Hg]; [lia|].
    apply list_elem_of_singleton in Hg. subst g. lia.
  - reflexivity.
  - reflexivity.
Defined.

(** X3: when all active reviews of a product carry the same grade [g],
    below [2^53] in magnitude (a single active review is the first case),
    the stored rating is exactly [g]. *)
Theorem rating_of_equal_grades pid db p g :
  products db !! pid = Some p →
  active_grades pid (reviews db) ≠ [] →
  (∀ g', g' ∈ active_grades pid (reviews db) → g' = g) →
  - 2 ^ 53 < g < 2 ^ 53 →
  ∃ db' p', update_product_rating pid db = (inr tt, db')
    ∧ products db' !! pid = Some p'
    ∧ ProductModel.rating p' = inject_Z g.
Proof.
  intros Hp Hne Hgs Hg53.
  destruct (update_product_rating_writes pid db p Hp) as (db' & Hrun & _ & Hp').
  exists db', (ProductModel.set_rating (spec_rating pid (reviews db)) p).
  split; [exact Hrun|]. split; [exact Hp'|].
  cbn [ProductModel.rating ProductModel.set_rating].
  rewrite spec_rating_nonempty by exact Hne.
  assert (sum_Z (active_grades pid (reviews db))
          = g * Z.of_nat (length (active_grades pid (reviews db)))) as Hsum.
  { pose proof (sum_Z_bounds g g (active_grades pid (reviews db))) as Hb.
    assert (∀ g', g' ∈ active_grades pid (reviews db) → g ≤ g' ≤ g) as Hall
      by (intros g' Hg'; rewrite (Hgs g' Hg'); lia).
    specialize (Hb Hall). lia. }
  destruct (active_grades pid (reviews db)) as [|g0 gs] eqn:E; [done|].
  apply rounded_integer; [exact Hg53|].
  unfold mean, Qeq, inject_Z. cbn [Qnum Qden].
  rewrite Hsum, length_pos_Z. lia.
Qed.

Lemma rating_of_equal_grades_witness :
  ∃ db' p', update_product_rating 7 shop_after = (inr tt, db')
    ∧ products db' !! 7 = Some p'
    ∧ ProductModel.rating p' = inject_Z 5.
Proof.
  eapply (rating_of_equal_grades 7 shop_after).
  - reflexivity.
  - discriminate.
  - intros g' Hg'. change (g' ∈ [5]) in Hg'.
    apply list_elem_of_singleton in Hg'. exact Hg'.
  - split; reflexivity.
Defined.

(** X4: [update_product_rating] stores [0.0] when the product has no active
    review ([AVG] is [NULL]) and also when the grades of its active reviews
    add up to zero (the average is falsy): both take the [or 0.0] branch. *)
Theorem rating_zero_cases pid db p :
  products db !! pid = Some p →
  sum_Z (active_grades pid (reviews db)) = 0 →
  ∃ db' p', update_product_rating pid db = (inr tt, db')
    ∧ products db' !! pid = Some p'
    ∧ ProductModel.rating p' = 0%Q.
Proof.
  intros Hp Hsum.
  destruct (update_product_rating_writes pid db p Hp) as (db' & Hrun & _ & Hp').
  exists db', (ProductModel.set_rating (spec_rating pid (reviews db)) p).
  split; [exact Hrun|]. split; [exact Hp'|].
  cbn [ProductModel.rating ProductModel.set_rating].
  unfold spec_rating. fold (active_grades pid (reviews db)).
  destruct (active_grades pid (reviews db)) as [|g gs]; [reflexivity|].
  rewrite Hsum. apply round2_zero_num.
Qed.

Lemma rating_zero_cases_witness :
  ∃ db' p', update_product_rating 7 shop = (inr tt, db')
    ∧ products db' !! 7 = Some p'
    ∧ ProductModel.rating p' = 0%Q.
Proof.
  eapply (rating_zero_cases 7 shop); reflexivity.
Defined.

Lemma with_rating_idem pid db :
  with_rating pid (with_rating pid db) = with_rating pid db.
Proof.
  unfold with_rating. destruct (products db !! pid) as [p|] eqn:Hp.
  - cbn [reviews products]. rewrite lookup_insert_eq. cbn [reviews products].
    by rewrite insert_insert_eq.
  - by rewrite Hp.
Qed.

Lemma products_with_rating_other pid db q :
  q ≠ pid → products (with_rating pid db) !! q = products db !! q.
Proof.
  intros Hq. unfold with_rating. destruct (products db !! pid); [|reflexivity].
  cbn [products]. by rewrite lookup_insert_ne.
Qed.

Lemma products_with_rating_flag pid db q :
  ProductModel.is_active <$> products (with_rating pid db) !! q
  = ProductModel.is_active <$> products db !! q.
Proof.
  destruct (decide (q = pid)) as [->|Hq];
    [|by rewrite products_with_rating_other].
  unfold with_rating. destruct (products db !! pid) as [p|] eqn:Hp;
    [|by rewrite Hp].
  cbn [products]. by rewrite lookup_insert_eq.
Qed.

(** X5: [update_product_rating] is answered on every database, leaves the
    reviews alone, changes no other product and, in the row of its product,
    nothing but the rating; a second run changes nothing more. *)
Theorem update_product_rating_idempotent pid db :
  ∃ db', update_product_rating pid db = (inr tt, db')
    ∧ update_product_rating pid db' = (inr tt, db')
    ∧ reviews db' = reviews db
    ∧ (∀ q, q ≠ pid → products db' !! q = products db !! q)
    ∧ ProductModel.is_active <$> products db' !! pid
      = ProductModel.is_active <$> products db !! pid.
Proof.
  exists (with_rating pid db). rewrite !update_product_rating_run.
  rewrite with_rating_idem. split; [reflexivity|]. split; [reflexivity|].
  split; [apply reviews_with_rating|]. split.
  - intros q Hq. by apply products_with_rating_other.
  - apply products_with_rating_flag.
Qed.

(** ** When [create_review] is answered, and with what *)

(** X6: [create_review] is answered exactly when the product exists and is
    active and the caller has no active review for it. *)
Theorem create_review_answered_iff review u db :
  (∃ r db', create_review review u db = (inr r, db'))
  ↔ (∃ p, products db !! ReviewCreate.product_id review = Some p
          ∧ ProductModel.is_active p = true)
    ∧ ¬ has_active_review (UserModel.id u) (ReviewCreate.product_id review)
          (reviews db).
Proof.
  split.
  - intros (r & db' & H). rewrite create_review_run in H. cbv zeta in H.
    destruct (products db !! ReviewCreate.product_id review) as [p|];
      [|discriminate].
    destruct (ProductModel.is_active p) eqn:Ha; [|discriminate].
    destruct (filter _ (reviews db)) as [|r0 rs0] eqn:Hf; [|discriminate].
    split; [by exists p|].
    intros (x & Hin & Hu & Hp & Hx).
    by apply (filter_nil_not_elem_of _ _ x Hf).
  - intros [(p & Hp & Ha) Hno]. eexists _, _.
    apply (create_review_answered review u db p Hp Ha).
    apply filter_none. intros x Hin (Hu & Hpx & Hx). apply Hno.
    by exists x.
Qed.

Lemma create_review_inv review u db r db' :
  create_review review u db = (inr r, db') →
  r = new_review review u (reviews db)
  ∧ db' = with_rating (ReviewCreate.product_id review)
            {| reviews := reviews db ++ [r]; products := products db |}
  ∧ ∃ p, products db !! ReviewCreate.product_id review = Some p
         ∧ ProductModel.is_active p = true.
Proof.
  rewrite create_review_run. cbv zeta. intros H.
  destruct (products db !! ReviewCreate.product_id review) as [p|];
    [|discriminate].
  destruct (ProductModel.is_active p) eqn:Ha; [|discriminate].
  destruct (filter _ (reviews db)) as [|r0 rs0]; [|discriminate].
  inversion H; subst. split; [reflexivity|]. split; [reflexivity|].
  by exists p.
Qed.

Lemma create_review_answered_iff_witness :
  ∃ r db', create_review (ReviewCreate.mk 7 "good" 4) buyer_A shop
           = (inr r, db').
Proof.
  apply (proj2 (create_review_answered_iff
                  (ReviewCreate.mk 7 "good" 4) buyer_A shop)).
  split.
  - exists product_P. split; reflexivity.
  - intros (x & Hx & _). inversion Hx.
Defined.

(** X7: an answered [create_review] returns an active row that carries the
    caller's id and the product, comment and grade of the request.  The
    table then holds its earlier rows, unchanged, and this row; and
    [get_all_reviews] answers with the rows it answered with before and
    the new row (as collections: no order is claimed). *)
Theorem create_review_answer review u db r db' :
  create_review review u db = (inr r, db') →
  ReviewModel.user_id r = UserModel.id u
  ∧ ReviewModel.product_id r = ReviewCreate.product_id review
  ∧ ReviewModel.comment r = ReviewCreate.comment review
  ∧ ReviewModel.grade r = ReviewCreate.grade review
  ∧ ReviewModel.is_active r = true
  ∧ reviews db' ≡ₚ r :: reviews db
  ∧ ∃ l l', get_all_reviews db = (inr l, db)
            ∧ get_all_reviews db' = (inr l', db')
            ∧ l' ≡ₚ r :: l.
Proof.
  intros H. apply create_review_inv in H as (Hr & -> & _).
  rewrite !get_all_reviews_run, reviews_with_rating. cbn [reviews].
  assert (ReviewModel.is_active r = true) as Ha by (subst r; reflexivity).
  split; [by subst r|]. split; [by subst r|]. split; [by subst r|].
  split; [by subst r|]. split; [exact Ha|].
  split; [symmetry; apply Permutation_cons_append|].
  eexists _, _. split; [reflexivity|]. split; [reflexivity|].
  rewrite filter_app, filter_cons_True by exact Ha.
  rewrite filter_nil. symmetry. apply Permutation_cons_append.
Qed.

Lemma create_review_answer_witness :
  reviews shop_reviewed ≡ₚ review_A :: reviews shop
  ∧ ∃ l l', get_all_reviews shop = (inr l, shop)
            ∧ get_all_reviews shop_reviewed = (inr l', shop_reviewed)
            ∧ l' ≡ₚ review_A :: l.
Proof.
  assert (create_review (ReviewCreate.mk 7 "good" 4) buyer_A shop
          = (inr review_A, shop_reviewed)) as H by (vm_compute; reflexivity).
  destruct (create_review_answer _ _ _ _ _ H) as (_ & _ & _ & _ & _ & Hr & Hl).
  split; [exact Hr | exact Hl].
Defined.

(** X8: after an answered [create_review] the rating of the reviewed product
    is the rounded mean grade of its active reviews, the new one included,
    whatever the rating was before; every other product row is unchanged. *)
Theorem create_review_repairs_rating review u db r db' :
  create_review review u db = (inr r, db') →
  (∃ p', products db' !! ReviewCreate.product_id review = Some p'
         ∧ ProductModel.is_active p' = true
         ∧ ProductModel.rating p'
           = spec_rating (ReviewCreate.product_id review) (reviews db'))
  ∧ ∀ q, q ≠ ReviewCreate.product_id review →
         products db' !! q = products db !! q.
Proof.
  intros H. apply create_review_inv in H as (_ & -> & p & Hp & Ha).
  split.
  - rewrite reviews_with_rating. unfold with_rating. cbn [reviews products].
    rewrite Hp. cbn [products]. rewrite lookup_insert_eq.
    eexists. split; [reflexivity|]. split; [exact Ha|].
    apply recomputed_rating_spec.
  - intros q Hq. by rewrite products_with_rating_other.
Qed.

Lemma create_review_repairs_rating_witness :
  ∃ p', products shop_reviewed !! 7 = Some p'
        ∧ ProductModel.is_active p' = true
        ∧ ProductModel.rating p' = spec_rating 7 (reviews shop_reviewed).
Proof.
  assert (create_review (ReviewCreate.mk 7 "good" 4) buyer_A shop
          = (inr review_A, shop_reviewed)) as H by (vm_compute; reflexivity).
  exact (proj1 (create_review_repairs_rating _ _ _ _ _ H)).
Defined.

(** ** When [delete_review] is answered, and with what *)

Lemma delete_review_inv rid u db m db' :
  delete_review rid u db = (inr m, db') →
  ∃ r rest,
    filter (λ r, ReviewModel.id r = rid
                 ∧ ReviewModel.is_active r = true) (reviews db) = r :: rest
    ∧ m = [("message", "Review deleted")]
    ∧ db' = with_rating (ReviewModel.product_id r)
              {| reviews := soft_delete rid (reviews db);
                 products := products db |}.
Proof.
  rewrite delete_review_run. intros H.
  destruct (filter _ (reviews db)) as [|r rest]; [discriminate|].
  inversion H; subst. by exists r, rest.
Qed.

(** X9: [delete_review] is answered exactly when some row has the key and is
    active, whoever the caller is; the answer is the message
    ["Review deleted"]. *)
Theorem delete_review_answered_iff rid u db :
  (∃ db', delete_review rid u db = (inr [("message", "Review deleted")], db'))
  ↔ ∃ r, r ∈ reviews db ∧ ReviewModel.id r = rid
         ∧ ReviewModel.is_active r = true.
Proof.
  rewrite delete_review_run. split.
  - intros (db' & H).
    destruct (filter _ (reviews db)) as [|r rest] eqn:Hf; [discriminate|].
    exists r.
    assert (r ∈ filter (λ r, ReviewModel.id r = rid
                             ∧ ReviewModel.is_active r = true) (reviews db))
      as Hin by (rewrite Hf; apply list_elem_of_here).
    apply list_elem_of_filter in Hin. tauto.
  - intros (r & Hin & Hid & Ha).
    destruct (filter _ (reviews db)) as [|r0 rest] eqn:Hf.
    + exfalso. by apply (filter_nil_not_elem_of _ _ r Hf).
    + eexists. reflexivity.
Qed.

Lemma delete_review_answered_iff_witness :
  ∃ db', delete_review 2 admin shop_after
         = (inr [("message", "Review deleted")], db').
Proof.
  apply (proj2 (delete_review_answered_iff 2 admin shop_after)).
  exists review_B. split; [|split; reflexivity].
  apply elem_of_cons. right. apply list_elem_of_here.
Defined.

Lemma soft_delete_listed rid rs :
  filter (λ r, ReviewModel.is_active r = true) (soft_delete rid rs)
  = filter (λ r, ReviewModel.id r ≠ rid)
      (filter (λ r, ReviewModel.is_active r = true) rs).
Proof.
  unfold soft_delete. induction rs as [|x rs IH]; [reflexivity|].
  rewrite fmap_cons, (filter_cons _ x rs), (filter_cons _ _ (_ <$> rs)), IH.
  destruct (decide (ReviewModel.id x = rid)) as [Hid|Hid].
  - rewrite decide_False by (cbn; discriminate).
    destruct (decide (ReviewModel.is_active x = true)); [|reflexivity].
    by rewrite filter_cons_False by (intros Hne; by apply Hne).
  - destruct (decide (ReviewModel.is_active x = true)); [|reflexivity].
    by rewrite filter_cons_True by exact Hid.
Qed.

(** X10: after an answered [delete_review], [get_all_reviews] answers with
    the rows it answered with before except those of the deleted key: the
    deleted review is gone from the listing and every other listed review
    is still there, as often as before (as collections: no order is
    claimed). *)
Theorem delete_review_unlists rid u db m db' :
  delete_review rid u db = (inr m, db') →
  ∃ l l', get_all_reviews db = (inr l, db)
          ∧ get_all_reviews db' = (inr l', db')
          ∧ l' ≡ₚ filter (λ r, ReviewModel.id r ≠ rid) l
          ∧ ∀ x, x ∈ l' ↔ x ∈ l ∧ ReviewModel.id x ≠ rid.
Proof.
  intros H. apply delete_review_inv in H as (r & rest & _ & _ & ->).
  rewrite !get_all_reviews_run, reviews_with_rating. cbn [reviews].
  eexists _, _. split; [reflexivity|]. split; [reflexivity|].
  rewrite soft_delete_listed. split; [reflexivity|].
  intros x. rewrite list_elem_of_filter. tauto.
Qed.

Lemma delete_review_unlists_witness :
  ∃ l l', get_all_reviews shop_rated = (inr l, shop_rated)
          ∧ get_all_reviews shop_after = (inr l', shop_after)
          ∧ l' ≡ₚ filter (λ r, ReviewModel.id r ≠ 1) l
          ∧ ∀ x, x ∈ l' ↔ x ∈ l ∧ ReviewModel.id x ≠ 1.
Proof.
  eapply (delete_review_unlists 1 admin shop_rated).
  vm_compute. reflexivity.
Defined.

(** X11: a review can be deleted only once: after an answered
    [delete_review], a second call with the same key raises 404 and changes
    nothing. *)
Theorem delete_review_twice rid u u' db m db' :
  delete_review rid u db = (inr m, db') →
  delete_review rid u' db' = (inl not_found_review, db').
Proof.
  intros H. apply delete_review_inv in H as (r & rest & _ & _ & ->).
  rewrite delete_review_run, reviews_with_rating. cbn [reviews].
  rewrite filter_none; [reflexivity|].
  intros x Hx [Hid Ha]. unfold soft_delete in Hx.
  apply list_elem_of_fmap in Hx as (x0 & -> & _).
  destruct (decide (ReviewModel.id x0 = rid)); [discriminate Ha|].
  contradiction.
Qed.

Lemma delete_review_twice_witness :
  delete_review 1 buyer_B shop_after = (inl not_found_review, shop_after).
Proof.
  eapply (delete_review_twice 1 admin buyer_B shop_rated).
  vm_compute. reflexivity.
Defined.

(** ** Deletion and the product row *)

(** With unique keys, the row [delete_review] finds is the active row with
    that key. *)
Lemma delete_review_target rid db r :
  review_ids_unique db → r ∈ reviews db →
  ReviewModel.id r = rid → ReviewModel.is_active r = true →
  ∃ rest, filter (λ r, ReviewModel.id r = rid
                       ∧ ReviewModel.is_active r = true) (reviews db)
          = r :: rest.
Proof.
  intros Hids Hin Hid Ha.
  destruct (filter _ (reviews db)) as [|r0 rest] eqn:Hf.
  - exfalso. by apply (filter_nil_not_elem_of _ _ r Hf).
  - assert (r0 ∈ filter (λ r, ReviewModel.id r = rid
                              ∧ ReviewModel.is_active r = true) (reviews db))
      as H0 by (rewrite Hf; apply list_elem_of_here).
    apply list_elem_of_filter in H0 as [[Hid0 _] Hin0].
    assert (r0 = r) as ->
      by (apply (ids_unique_inj (reviews db)); [exact Hids|done|done|congruence]).
    by exists rest.
Qed.

(** X12: [delete_review] recomputes the rating of the deleted review's
    product whenever that product has a row, active or not (unlike
    [create_review], it does not look at the product's [is_active]): the
    stored rating becomes the rounded mean grade of the reviews still
    active, whatever it was before, and no other product row changes. *)
Theorem delete_review_repairs_rating u db r p :
  review_ids_unique db → r ∈ reviews db → ReviewModel.is_active r = true →
  products db !! ReviewModel.product_id r = Some p →
  ∃ db', delete_review (ReviewModel.id r) u db
           = (inr [("message", "Review deleted")], db')
    ∧ products db' !! ReviewModel.product_id r
      = Some (ProductModel.set_rating
                (spec_rating (ReviewModel.product_id r) (reviews db')) p)
    ∧ ∀ q, q ≠ ReviewModel.product_id r →
           products db' !! q = products db !! q.
Proof.
  intros Hids Hin Ha Hp.
  destruct (delete_review_target _ db r Hids Hin eq_refl Ha) as (rest & Hf).
  eexists. split; [apply (delete_review_answered _ u db r rest p Hf Hp)|].
  cbn [reviews products]. split.
  - by rewrite lookup_insert_eq, recomputed_rating_spec.
  - intros q Hq. by rewrite lookup_insert_ne.
Qed.

Lemma delete_review_repairs_rating_witness :
  ∃ db', delete_review 1 admin shop_closed
           = (inr [("message", "Review deleted")], db')
    ∧ products db' !! 7
      = Some {| ProductModel.rating := 0%Q; ProductModel.is_active := false |}.
Proof.
  destruct (delete_review_repairs_rating admin shop_closed review_A
              {| ProductModel.rating := 4%Q; ProductModel.is_active := false |})
    as (db' & Hrun & Hp & _).
  - apply NoDup_singleton.
  - apply list_elem_of_here.
  - reflexivity.
  - reflexivity.
  - exists db'. split; [exact Hrun|].
    assert (delete_review 1 admin shop_closed
            = (inr [("message", "Review deleted")],
               {| reviews := [ReviewModel.deactivate review_A];
                  products := {[ 7 := {| ProductModel.rating := 0%Q;
                                         ProductModel.is_active := false |} ]} |}))
      as Hc by (vm_compute; reflexivity).
    change (ReviewModel.id review_A) with 1 in Hrun.
    rewrite Hrun in Hc. inversion Hc. reflexivity.
Defined.

(** X13: when the product of the review has no row any more,
    [delete_review] is still answered: the review is deactivated and the
    [products] table is left as it is. *)
Theorem delete_review_missing_product u db r :
  review_ids_unique db → r ∈ reviews db → ReviewModel.is_active r = true →
  products db !! ReviewModel.product_id r = None →
  delete_review (ReviewModel.id r) u db
  = (inr [("message", "Review deleted")],
     {| reviews := soft_delete (ReviewModel.id r) (reviews db);
        products := products db |}).
Proof.
  intros Hids Hin Ha Hp.
  destruct (delete_review_target _ db r Hids Hin eq_refl Ha) as (rest & Hf).
  rewrite delete_review_run, Hf. unfold with_rating. cbn [reviews products].
  by rewrite Hp.
Qed.

Lemma delete_review_missing_product_witness :
  delete_review 1 admin shop_orphan
  = (inr [("message", "Review deleted")],
     {| reviews := [ReviewModel.deactivate review_A]; products := ∅ |}).
Proof.
  apply (delete_review_missing_product admin shop_orphan review_A).
  - apply NoDup_singleton.
  - apply list_elem_of_here.
  - reflexivity.
  - reflexivity.
Defined.

(** ** What the handlers never do to [products] *)

Lemma exec_products_flag req db q :
  ProductModel.is_active <$> products (exec req db) !! q
  = ProductModel.is_active <$> products db !! q.
Proof.
  destruct req as [|review u|rid u|pid].
  - reflexivity.
  - rewrite exec_create, create_review_run. cbv zeta.
    destruct (products db !! ReviewCreate.product_id review) as [p|];
      [|reflexivity].
    destruct (ProductModel.is_active p); [|reflexivity].
    destruct (filter _ (reviews db)); [|reflexivity].
    cbn [snd]. by rewrite products_with_rating_flag.
  - rewrite exec_delete, delete_review_run.
    destruct (filter _ (reviews db)); [reflexivity|].
    cbn [snd]. by rewrite products_with_rating_flag.
  - rewrite exec_update. apply products_with_rating_flag.
Qed.

(** X14: no sequence of requests, answered or refused, creates or removes a
    product row or changes a product's [is_active]: for every key the
    [products] table has a row after exactly when it had one before, with
    the same flag.  Only ratings are written. *)
Theorem products_rows_and_flags_preserved reqs db q :
  ProductModel.is_active <$> products (exec_all reqs db) !! q
  = ProductModel.is_active <$> products db !! q.
Proof.
  revert db. induction reqs as [|req reqs IH]; intros db; [reflexivity|].
  cbn [exec_all foldl]. fold (exec_all reqs (exec req db)).
  rewrite IH. apply exec_products_flag.
Qed.

(** ** Compositions of [create_review] and [delete_review] *)

(** X15: the duplicate check of [create_review] looks at active reviews
    only, so once a user's review of a product has been deleted the same
    user can review that product again (the product being active), provided
    the deleted review was the user's only active one, as the invariant
    [one_active_review_per_pair] guarantees. *)
Theorem review_again_after_delete rid adm u review db m db1 r p :
  delete_review rid adm db = (inr m, db1) →
  one_active_review_per_pair (reviews db) →
  r ∈ reviews db → ReviewModel.id r = rid → ReviewModel.is_active r = true →
  ReviewModel.user_id r = UserModel.id u →
  ReviewModel.product_id r = ReviewCreate.product_id review →
  products db !! ReviewCreate.product_id review = Some p →
  ProductModel.is_active p = true →
  ∃ r' db2, create_review review u db1 = (inr r', db2).
Proof.
  intros Hdel Hone Hin Hid Ha Hu Hpr Hp Hpa.
  apply delete_review_inv in Hdel as (r0 & rest & _ & _ & ->).
  assert (∃ p1, products (with_rating (ReviewModel.product_id r0)
                   {| reviews := soft_delete rid (reviews db);
                      products := products db |})
                 !! ReviewCreate.product_id review = Some p1
                ∧ ProductModel.is_active p1 = true) as (p1 & Hp1 & Hp1a).
  { assert (ProductModel.is_active <$>
              products (with_rating (ReviewModel.product_id r0)
                 {| reviews := soft_delete rid (reviews db);
                    products := products db |})
              !! ReviewCreate.product_id review = Some true) as Hflag.
    { rewrite products_with_rating_flag. cbn [products]. rewrite Hp.
      cbn. by rewrite Hpa. }
    destruct (products (with_rating _ _) !! ReviewCreate.product_id review)
      as [p1|]; [|discriminate].
    exists p1. split; [reflexivity|]. cbn in Hflag. congruence. }
  eexists _, _. apply (create_review_answered review u _ p1 Hp1 Hp1a).
  rewrite reviews_with_rating. cbn [reviews]. apply filter_none.
  intros x Hx (Hxu & Hxp & Hxa). unfold soft_delete in Hx.
  apply list_elem_of_fmap in Hx as (x0 & -> & Hx0).
  destruct (decide (ReviewModel.id x0 = rid)) as [Hx0id|Hx0id];
    [discriminate Hxa|].
  apply list_elem_of_lookup in Hx0 as [i Hi].
  apply list_elem_of_lookup in Hin as [j Hj].
  assert (i = j) as -> by (apply (Hone i j x0 r); congruence).
  congruence.
Qed.

Lemma review_again_after_delete_witness :
  ∃ r' db2,
    create_review (ReviewCreate.mk 7 "better" 3) buyer_A shop_after
    = (inr r', db2).
Proof.
  eapply (review_again_after_delete 1 admin buyer_A
            (ReviewCreate.mk 7 "better" 3) shop_rated _ shop_after review_A).
  - vm_compute. reflexivity.
  - intros i j r1 r2 Hi Hj _ _ Hu _.
    destruct i as [|[|i]], j as [|[|j]]; try reflexivity; try discriminate;
      cbn in Hi, Hj; inversion Hi; inversion Hj; subst; discriminate Hu.
  - apply list_elem_of_here.
  - reflexivity.
  - reflexivity.
  - reflexivity.
  - reflexivity.
  - reflexivity.
  - reflexivity.
Defined.

Lemma soft_delete_fresh rid rs :
  (∀ x, x ∈ rs → ReviewModel.id x ≠ rid) → soft_delete rid rs = rs.
Proof.
  unfold soft_delete. induction rs as [|x rs IH]; intros H; [reflexivity|].
  rewrite fmap_cons, IH by (intros y Hy; apply H; by apply elem_of_cons; right).
  by rewrite decide_False by (apply H, list_elem_of_here).
Qed.

(** X16: creating a review and then deleting it by the key
    [create_review] returned is always possible and undoes the listing:
    [get_all_reviews] answers with the rows it answered with before the
    creation (as a collection), the rating of the product is the rounded
    mean grade of the reviews active before, and no other product row has
    changed.  The deactivated row itself stays in the table, beside the
    earlier rows. *)
Theorem create_then_delete review u adm db r db1 :
  create_review review u db = (inr r, db1) →
  ∃ db2, delete_review (ReviewModel.id r) adm db1
           = (inr [("message", "Review deleted")], db2)
    ∧ reviews db2 ≡ₚ ReviewModel.deactivate r :: reviews db
    ∧ (∃ l l2, get_all_reviews db = (inr l, db)
               ∧ get_all_reviews db2 = (inr l2, db2)
               ∧ l2 ≡ₚ l)
    ∧ (∃ p2, products db2 !! ReviewCreate.product_id review = Some p2
             ∧ ProductModel.rating p2
               = spec_rating (ReviewCreate.product_id review) (reviews db))
    ∧ ∀ q, q ≠ ReviewCreate.product_id review →
           products db2 !! q = products db !! q.
Proof.
  intros H. apply create_review_inv in H as (Hr & -> & p & Hp & Hpa).
  set (pid := ReviewCreate.product_id review) in *.
  assert (∀ x, x ∈ reviews db → ReviewModel.id x ≠ ReviewModel.id r) as Hfresh.
  { intros x Hx. apply next_id_above in Hx. subst r. cbn. lia. }
  assert (ReviewModel.product_id r = pid) as Hrp by (by subst r).
  assert (ReviewModel.is_active r = true) as Hra by (by subst r).
  assert (soft_delete (ReviewModel.id r) (reviews db ++ [r])
          = reviews db ++ [ReviewModel.deactivate r]) as Hsd.
  { unfold soft_delete. rewrite fmap_app.
    fold (soft_delete (ReviewModel.id r) (reviews db)).
    rewrite soft_delete_fresh by exact Hfresh. cbn [fmap list_fmap].
    by rewrite decide_True. }
  rewrite delete_review_run, reviews_with_rating. cbn [reviews].
  rewrite filter_app, (filter_none _ (reviews db))
    by (intros x Hx [Hid _]; by apply (Hfresh x)).
  rewrite filter_cons_True by done. cbn [app]. rewrite Hrp, Hsd.
  eexists. split; [reflexivity|].
  rewrite reviews_with_rating. cbn [reviews].
  split; [symmetry; apply Permutation_cons_append|].
  split; [|split].
  - rewrite !get_all_reviews_run, reviews_with_rating. cbn [reviews].
    eexists _, _. split; [reflexivity|]. split; [reflexivity|].
    rewrite filter_app, filter_cons_False by (cbn; discriminate).
    by rewrite filter_nil, app_nil_r.
  - unfold with_rating at 1. cbn [products reviews].
    unfold with_rating at 1. cbn [products reviews]. rewrite Hp.
    cbn [products]. rewrite lookup_insert_eq. cbn [products].
    rewrite lookup_insert_eq. eexists. split; [reflexivity|].
    cbn [ProductModel.rating ProductModel.set_rating].
    rewrite recomputed_rating_spec. unfold spec_rating, active_reviews_of.
    rewrite filter_app, filter_cons_False by (intros [_ Hf]; discriminate Hf).
    by rewrite filter_nil, app_nil_r.
  - intros q Hq. rewrite products_with_rating_other by exact Hq.
    cbn [products]. by rewrite products_with_rating_other by exact Hq.
Qed.

Lemma create_then_delete_witness :
  ∃ db2, delete_review 1 admin shop_reviewed
           = (inr [("message", "Review deleted")], db2)
    ∧ ∃ l l2, get_all_reviews shop = (inr l, shop)
              ∧ get_all_reviews db2 = (inr l2, db2)
              ∧ l2 ≡ₚ l.
Proof.
  assert (create_review (ReviewCreate.mk 7 "good" 4) buyer_A shop
          = (inr review_A, shop_reviewed)) as H by (vm_compute; reflexivity).
  destruct (create_then_delete _ _ admin _ _ _ H) as (db2 & Hd & _ & Hl & _).
  exists db2. split; [exact Hd | exact Hl].
Defined.
